(** * Quota lottery of [src/selection.py]: a shallow embedding

    The allocation engine of the repository ([compute_quota],
    [draw_for_category], [redistribute_shortfalls], [run_lottery] and
    [run_lottery_per_turma]) is translated function by function and its
    properties are proved on the translation.

    Modelling conventions.
    - Python [int] is [Z]; list lengths are [nat].
    - Python [float] percentages are idealised as exact rationals [Q]: there
      is no rounding, no NaN and no infinity.
    - [Candidate.categoria] ranges over the three names of [PRIORITY];
      [read_candidates] builds no other value.
    - A [dict] whose keys are exactly the entries of [PRIORITY] is a
      [PerCat] record; a CSV row ([Dict[str, str]]) is a [gmap string string];
      dicts whose iteration order matters are association lists.
    - Strings are byte strings; [str.strip] and [str.lower] are modelled on
      ASCII, which decides membership in the set of true-ish words.
    - [random.Random] and [hashlib.sha256] belong to the Python library, not
      to the repository: they are the interface [PyLib], which fixes only what
      their documentation promises.
    - A raised exception is the [Raise] branch of [result]. *)

From Stdlib Require Import ZArith QArith Qround Lia List Ascii.
From stdpp Require Import base decidable option list gmap strings pretty.

Local Open Scope Z_scope.

(** ** Exceptions *)

Inductive exn : Type :=
| ValueError (msg : string).

Inductive result (A : Type) : Type :=
| Ok (a : A)
| Raise (e : exn).
Arguments Ok {A} a.
Arguments Raise {A} e.

Global Instance result_ret : MRet result := λ A a, Ok a.
Global Instance result_bind : MBind result := λ A B k m,
  match m with
  | Ok a => k a
  | Raise e => Raise e
  end.

Definition is_ok {A : Type} (m : result A) : bool :=
  match m with Ok _ => true | Raise _ => false end.

(** ** Categories and candidates *)

Inductive Category : Type := Aluno | Servidor | ComunidadeExterna.

Global Instance Category_eq_dec : EqDecision Category.
Proof. solve_decision. Defined.

(** [PRIORITY = ["Aluno", "Servidor", "Comunidade Externa"]] *)
Definition PRIORITY : list Category := [Aluno; Servidor; ComunidadeExterna].

Definition category_name (c : Category) : string :=
  match c with
  | Aluno => "Aluno"
  | Servidor => "Servidor"
  | ComunidadeExterna => "Comunidade Externa"
  end.

Abbreviation Row := (gmap string string).

(** [@dataclass class Candidate]: the generated [__eq__] compares the three
    fields, so equality of candidates is structural. *)
Record Candidate : Type := mkCandidate {
  row : Row;
  categoria : Category;
  turma : option string;
}.

Global Instance Candidate_eq_dec : EqDecision Candidate.
Proof. solve_decision. Defined.

(** ** Dicts keyed by [PRIORITY] *)

Record PerCat (A : Type) : Type := mkPerCat {
  pc_aluno : A;
  pc_servidor : A;
  pc_comunidade : A;
}.
Arguments mkPerCat {A} _ _ _.
Arguments pc_aluno {A} _.
Arguments pc_servidor {A} _.
Arguments pc_comunidade {A} _.

(** [d[cat]] *)
Definition pc_get {A : Type} (cat : Category) (d : PerCat A) : A :=
  match cat with
  | Aluno => pc_aluno d
  | Servidor => pc_servidor d
  | ComunidadeExterna => pc_comunidade d
  end.

(** [d[cat] = v] *)
Definition pc_set {A : Type} (cat : Category) (v : A) (d : PerCat A) : PerCat A :=
  match cat with
  | Aluno => mkPerCat v (pc_servidor d) (pc_comunidade d)
  | Servidor => mkPerCat (pc_aluno d) v (pc_comunidade d)
  | ComunidadeExterna => mkPerCat (pc_aluno d) (pc_servidor d) v
  end.

(** [{k: v for k in PRIORITY}] *)
Definition pc_const {A : Type} (v : A) : PerCat A := mkPerCat v v v.

(** [d.values()], in insertion order *)
Definition pc_values {A : Type} (d : PerCat A) : list A :=
  (λ cat, pc_get cat d) <$> PRIORITY.

(** [sum(xs)] over integers *)
Definition sumZ (xs : list Z) : Z := foldr Z.add 0 xs.

(** ** The Python library the engine calls *)

Class PyLib : Type := {
  (** the state of a [random.Random] instance *)
  rng : Type;
  (** [random.Random(seed)] *)
  Random : Z → rng;
  (** [rng.shuffle(x)]: the shuffled list and the advanced generator *)
  rng_shuffle : ∀ {A : Type}, rng → list A → list A * rng;
  (** [rng.sample(population, k)] for [0 <= k <= len(population)] *)
  rng_sample : ∀ {A : Type}, rng → list A → nat → list A * rng;
  (** [int(hashlib.sha256(s.encode("utf-8")).hexdigest()[:16], 16)] *)
  sha256_head : string → Z;
  (** shuffling rearranges, it neither drops nor invents an element *)
  rng_shuffle_perm : ∀ (A : Type) (g : rng) (l : list A),
    (rng_shuffle g l).1 ≡ₚ l;
  (** sampling picks [k] positions of the population without replacement *)
  rng_sample_spec : ∀ (A : Type) (g : rng) (l : list A) (k : nat),
    (k ≤ length l)%nat →
    length (rng_sample g l k).1 = k ∧
    ∃ rest, (rng_sample g l k).1 ++ rest ≡ₚ l;
}.

(** ** Quota Calculator *)

(** [max(0.0, p)]: Python returns its first argument unless a later one is
    strictly greater. *)
Definition max0 (p : Q) : Q :=
  if Qle_bool p 0 then 0%Q else p.

(** The loop [while remainder > 0] of [compute_quota]; it runs [remainder]
    times, [i] counts the turns. *)
Fixpoint distribute (remainder : nat) (i : nat) (base : PerCat Z) : PerCat Z :=
  match remainder with
  | O => base
  | S r =>
      let cat := nth (i mod length PRIORITY) PRIORITY Aluno in
      distribute r (i + 1) (pc_set cat (pc_get cat base + 1) base)
  end.

(** Every caller passes a dict with the three keys of [PRIORITY], so the
    default of [pct_by_cat.get(cat, 0.0)] is never used. *)
Definition compute_quota (vagas : Z) (pct_by_cat : PerCat Q) : PerCat Z :=
  let base :=
    mkPerCat
      (Qfloor (inject_Z vagas * max0 (pc_get Aluno pct_by_cat)))
      (Qfloor (inject_Z vagas * max0 (pc_get Servidor pct_by_cat)))
      (Qfloor (inject_Z vagas * max0 (pc_get ComunidadeExterna pct_by_cat))) in
  let allocated := sumZ (pc_values base) in
  let remainder := vagas - allocated in
  distribute (Z.to_nat remainder) 0 base.

(** ** Category Drawer *)

(** [partition_by_category]: every candidate is appended to the list of its
    category, in input order. *)
Definition partition_by_category (candidates : list Candidate)
    : PerCat (list Candidate) :=
  fold_left
    (λ groups c, pc_set (categoria c) (pc_get (categoria c) groups ++ [c]) groups)
    candidates (pc_const []).

(** [not group] *)
Definition is_empty {A : Type} (l : list A) : bool :=
  match l with [] => true | _ => false end.

Section engine.
Context `{PyLib}.

(** [rng.sample(population, k)], with the range check of the library. *)
Definition sample {A : Type} (g : rng) (population : list A) (k : Z)
    : result (list A * rng) :=
  if (0 <=? k) && (k <=? Z.of_nat (length population))
  then Ok (rng_sample g population (Z.to_nat k))
  else Raise (ValueError "Sample larger than population or is negative").

Definition draw_for_category (g : rng) (group : list Candidate) (k : Z)
    : result (list Candidate * list Candidate * rng) :=
  if (k <=? 0) || is_empty group then
    Ok ([], group, g)
  else if Z.of_nat (length group) <=? k then
    let '(shuffled, g1) := rng_shuffle g group in
    Ok (shuffled, [], g1)
  else
    '(selected, g1) ← sample g group k;
    let remaining := filter (λ c, c ∉ selected) group in
    let '(remaining, g2) := rng_shuffle g1 remaining in
    Ok (selected, remaining, g2).

(** ** Shortfall Redistributor *)

(** The inner loop [while waitlist and total_deficit > 0]: the front of the
    waitlist moves to the back of the winners of the same category. *)
Fixpoint drain (waitlist selected : list Candidate) (total_deficit : Z)
    : list Candidate * list Candidate * Z :=
  match waitlist with
  | [] => (waitlist, selected, total_deficit)
  | cand :: rest =>
      if 0 <? total_deficit
      then drain rest (selected ++ [cand]) (total_deficit - 1)
      else (waitlist, selected, total_deficit)
  end.

(** The loop [for cat in PRIORITY] of [redistribute_shortfalls]. *)
Fixpoint refill (cats : list Category)
    (per_cat_selected per_cat_waiting : PerCat (list Candidate))
    (total_deficit : Z)
    : PerCat (list Candidate) * PerCat (list Candidate) :=
  match cats with
  | [] => (per_cat_selected, per_cat_waiting)
  | cat :: cats' =>
      if total_deficit =? 0 then (per_cat_selected, per_cat_waiting)
      else
        let '(waitlist, selected, total_deficit') :=
          drain (pc_get cat per_cat_waiting) (pc_get cat per_cat_selected)
                total_deficit in
        refill cats' (pc_set cat selected per_cat_selected)
               (pc_set cat waitlist per_cat_waiting) total_deficit'
  end.

Definition deficit_by_cat (per_cat_selected : PerCat (list Candidate))
    (per_cat_quota : PerCat Z) : PerCat Z :=
  mkPerCat
    (Z.max 0 (pc_get Aluno per_cat_quota
              - Z.of_nat (length (pc_get Aluno per_cat_selected))))
    (Z.max 0 (pc_get Servidor per_cat_quota
              - Z.of_nat (length (pc_get Servidor per_cat_selected))))
    (Z.max 0 (pc_get ComunidadeExterna per_cat_quota
              - Z.of_nat (length (pc_get ComunidadeExterna per_cat_selected)))).

(** The function mutates its two dicts in place and returns [None]; the
    embedding returns the two dicts as they are left. The generator is an
    unused argument of the source. *)
Definition redistribute_shortfalls (g : rng)
    (per_cat_selected per_cat_waiting : PerCat (list Candidate))
    (per_cat_quota : PerCat Z)
    : PerCat (list Candidate) * PerCat (list Candidate) :=
  let total_deficit := sumZ (pc_values (deficit_by_cat per_cat_selected per_cat_quota)) in
  if total_deficit =? 0 then (per_cat_selected, per_cat_waiting)
  else refill PRIORITY per_cat_selected per_cat_waiting total_deficit.

(** ** Lottery Orchestrator *)

(** The loop [for cat in PRIORITY] that draws every category with one
    generator. *)
Fixpoint draw_all (cats : list Category) (g : rng)
    (groups : PerCat (list Candidate)) (quotas : PerCat Z)
    (per_cat_selected per_cat_waiting : PerCat (list Candidate))
    : result (PerCat (list Candidate) * PerCat (list Candidate) * rng) :=
  match cats with
  | [] => Ok (per_cat_selected, per_cat_waiting, g)
  | cat :: cats' =>
      '(selected, waiting, g1) ←
        draw_for_category g (pc_get cat groups) (pc_get cat quotas);
      draw_all cats' g1 groups quotas
        (pc_set cat selected per_cat_selected)
        (pc_set cat waiting per_cat_waiting)
  end.

(** [out = []; for cat in PRIORITY: out.extend(d[cat])] *)
Definition extend_all (d : PerCat (list Candidate)) : list Candidate :=
  concat (pc_values d).

(** Everything of [run_lottery] after the quotas are known; the same
    statements close the loop body of [run_lottery_per_turma]. *)
Definition draw_and_consolidate (g : rng) (groups : PerCat (list Candidate))
    (quotas : PerCat Z) (vagas : Z) : result (list Row * list Row) :=
  '(per_cat_selected, per_cat_waiting, g1) ←
    draw_all PRIORITY g groups quotas (pc_const []) (pc_const []);
  let '(per_cat_selected, per_cat_waiting) :=
    redistribute_shortfalls g1 per_cat_selected per_cat_waiting quotas in
  let aprovados := take (Z.to_nat vagas) (extend_all per_cat_selected) in
  let espera := extend_all per_cat_waiting in
  Ok (row <$> aprovados, row <$> espera).

Definition run_lottery (candidates : list Candidate) (vagas : Z)
    (pct_aluno pct_servidor pct_comunidade : Q) (seed : Z)
    : result (list Row * list Row) :=
  if vagas <=? 0 then Ok ([], [])
  else
    let total_pct := (pct_aluno + pct_servidor + pct_comunidade)%Q in
    if Qle_bool total_pct 0 then
      Raise (ValueError "A soma dos percentuais deve ser > 0")
    else
      let pct_aluno := (pct_aluno / total_pct)%Q in
      let pct_servidor := (pct_servidor / total_pct)%Q in
      let pct_comunidade := (pct_comunidade / total_pct)%Q in
      let g := Random seed in
      let groups := partition_by_category candidates in
      let quotas :=
        compute_quota vagas (mkPerCat pct_aluno pct_servidor pct_comunidade) in
      draw_and_consolidate g groups quotas vagas.

End engine.

(** ** Grouped Lottery Runner *)

(** The ASCII characters for which [str.isspace] holds. *)
Definition py_isspace (a : ascii) : bool :=
  let n := nat_of_ascii a in
  ((9 <=? n) && (n <=? 13) || (28 <=? n) && (n <=? 32))%nat.

Fixpoint py_lstrip (s : string) : string :=
  match s with
  | EmptyString => EmptyString
  | String a s' => if py_isspace a then py_lstrip s' else s
  end.

(** [s.strip()] *)
Definition py_strip (s : string) : string :=
  String.rev (py_lstrip (String.rev (py_lstrip s))).

Definition lower_ascii (a : ascii) : ascii :=
  let n := nat_of_ascii a in
  if ((65 <=? n) && (n <=? 90))%nat then ascii_of_nat (n + 32) else a.

(** [s.lower()] *)
Fixpoint py_lower (s : string) : string :=
  match s with
  | EmptyString => EmptyString
  | String a s' => String (lower_ascii a) (py_lower s')
  end.

Definition _trueish (val : string) : bool :=
  let v := py_lower (py_strip val) in
  bool_decide (v ∈ ["true"; "1"; "sim"; "yes"; "y"]).

(** [row.get(key, default)] *)
Definition row_get (r : Row) (key dflt : string) : string :=
  default dflt (r !! key).

Definition _allowed_cats_for_turma (sample_row : Row) : list Category :=
  let allowed :=
    (if _trueish (row_get sample_row "Aluno [Vaga]" "true") then [Aluno] else [])
    ++ (if _trueish (row_get sample_row "Servidor [Vaga]" "true") then [Servidor] else [])
    ++ (if _trueish (row_get sample_row "Externo [Vaga]" "true")
        then [ComunidadeExterna] else []) in
  if is_empty allowed then PRIORITY else allowed.

(** [sum(xs)] over percentages *)
Definition sumQ (xs : list Q) : Q := foldr Qplus 0%Q xs.

Definition _normalize_pcts (pcts : PerCat Q) : result (PerCat Q) :=
  let total := sumQ (max0 <$> pc_values pcts) in
  if Qle_bool total 0 then
    Raise (ValueError "A soma dos percentuais deve ser > 0")
  else
    Ok (mkPerCat (max0 (pc_aluno pcts) / total)%Q
                 (max0 (pc_servidor pcts) / total)%Q
                 (max0 (pc_comunidade pcts) / total)%Q).

(** [c.turma or ""] *)
Definition turma_key (c : Candidate) : string :=
  match turma c with
  | Some t => t
  | None => ""
  end.

(** [turmas.setdefault(t, []).append(c)] on a dict kept in insertion order *)
Fixpoint setdefault_append (t : string) (c : Candidate)
    (turmas : list (string * list Candidate)) : list (string * list Candidate) :=
  match turmas with
  | [] => [(t, [c])]
  | (t', cs) :: rest =>
      if decide (t' = t) then (t', cs ++ [c]) :: rest
      else (t', cs) :: setdefault_append t c rest
  end.

Definition group_by_turma (candidates : list Candidate)
    : list (string * list Candidate) :=
  fold_left (λ turmas c, setdefault_append (turma_key c) c turmas) candidates [].

(** The first row seen for every turma that is not [None]. *)
Definition sample_rows (candidates : list Candidate) : gmap string Row :=
  fold_left
    (λ sample_by_turma c,
       match turma c with
       | Some t =>
           match sample_by_turma !! t with
           | None => <[t := row c]> sample_by_turma
           | Some _ => sample_by_turma
           end
       | None => sample_by_turma
       end)
    candidates ∅.

(** [d.get(key)] on a dict kept in insertion order *)
Fixpoint assoc_get {V : Type} (key : string) (d : list (string * V)) : option V :=
  match d with
  | [] => None
  | (k, v) :: rest => if decide (k = key) then Some v else assoc_get key rest
  end.

Section grouped.
Context `{PyLib}.

(** One turn of the loop [for turma, cands in turmas.items()]: what is stored
    in [results[turma]], or the exception that leaves the loop. *)
Definition lottery_of_turma (sample_by_turma : gmap string Row)
    (vagas_por_turma : gmap string Z) (pcts : PerCat Q) (seed : Z)
    (turma : string) (cands : list Candidate) : result (list Row * list Row) :=
  let vagas := default 0 (vagas_por_turma !! turma) in
  if vagas <=? 0 then Ok ([], [])
  else
    let allowed := _allowed_cats_for_turma (default ∅ (sample_by_turma !! turma)) in
    let cands_allowed := filter (λ c, categoria c ∈ allowed) cands in
    let pcts_turma :=
      mkPerCat
        (if bool_decide (Aluno ∈ allowed) then pc_get Aluno pcts else 0%Q)
        (if bool_decide (Servidor ∈ allowed) then pc_get Servidor pcts else 0%Q)
        (if bool_decide (ComunidadeExterna ∈ allowed)
         then pc_get ComunidadeExterna pcts else 0%Q) in
    pcts_turma ← _normalize_pcts pcts_turma;
    let rng_seed := sha256_head (pretty seed +:+ "|" +:+ turma) in
    let g := Random rng_seed in
    let groups := partition_by_category cands_allowed in
    let quotas := compute_quota vagas pcts_turma in
    draw_and_consolidate g groups quotas vagas.

(** The loop over [turmas.items()], filling [results] in the same order. *)
Fixpoint lottery_loop (sample_by_turma : gmap string Row)
    (vagas_por_turma : gmap string Z) (pcts : PerCat Q) (seed : Z)
    (turmas : list (string * list Candidate))
    : result (list (string * (list Row * list Row))) :=
  match turmas with
  | [] => Ok []
  | (turma, cands) :: rest =>
      r ← lottery_of_turma sample_by_turma vagas_por_turma pcts seed turma cands;
      results ← lottery_loop sample_by_turma vagas_por_turma pcts seed rest;
      Ok ((turma, r) :: results)
  end.

Definition run_lottery_per_turma (candidates : list Candidate)
    (vagas_por_turma : gmap string Z)
    (pct_aluno pct_servidor pct_comunidade : Q) (seed : Z)
    : result (list (string * (list Row * list Row))) :=
  let turmas := group_by_turma candidates in
  pcts ← _normalize_pcts (mkPerCat pct_aluno pct_servidor pct_comunidade);
  let sample_by_turma := sample_rows candidates in
  lottery_loop sample_by_turma vagas_por_turma pcts seed turmas.

End grouped.

(** ** Closed forms of the redistribution

    They are used to state what [redistribute_shortfalls] leaves behind. *)

(** How many candidates leave each waitlist when [deficit] slots are free. *)
Definition moved (deficit : nat) (per_cat_waiting : PerCat (list Candidate))
    : PerCat nat :=
  let ma := (deficit `min` length (pc_aluno per_cat_waiting))%nat in
  let ms := ((deficit - ma) `min` length (pc_servidor per_cat_waiting))%nat in
  let mc := ((deficit - ma - ms) `min` length (pc_comunidade per_cat_waiting))%nat in
  mkPerCat ma ms mc.

Definition refilled (deficit : nat)
    (per_cat_selected per_cat_waiting : PerCat (list Candidate))
    : PerCat (list Candidate) * PerCat (list Candidate) :=
  let m := moved deficit per_cat_waiting in
  (mkPerCat
     (pc_aluno per_cat_selected ++ take (pc_aluno m) (pc_aluno per_cat_waiting))
     (pc_servidor per_cat_selected ++ take (pc_servidor m) (pc_servidor per_cat_waiting))
     (pc_comunidade per_cat_selected
      ++ take (pc_comunidade m) (pc_comunidade per_cat_waiting)),
   mkPerCat
     (drop (pc_aluno m) (pc_aluno per_cat_waiting))
     (drop (pc_servidor m) (pc_servidor per_cat_waiting))
     (drop (pc_comunidade m) (pc_comunidade per_cat_waiting))).

(** [sum(deficit_by_cat.values())] *)
Definition total_deficit (per_cat_selected : PerCat (list Candidate))
    (per_cat_quota : PerCat Z) : Z :=
  sumZ (pc_values (deficit_by_cat per_cat_selected per_cat_quota)).


(** *** The redistribution rule, in the words of the specification

    One freed slot is filled by the front candidate of the first waitlist, in
    priority order, that is not empty; the candidate joins the winners of
    the category it waited in. *)
Fixpoint move_front (cats : list Category)
    (per_cat_selected per_cat_waiting : PerCat (list Candidate))
    : option (PerCat (list Candidate) * PerCat (list Candidate)) :=
  match cats with
  | [] => None
  | cat :: cats' =>
      match pc_get cat per_cat_waiting with
      | cand :: rest =>
          Some (pc_set cat (pc_get cat per_cat_selected ++ [cand]) per_cat_selected,
                pc_set cat rest per_cat_waiting)
      | [] => move_front cats' per_cat_selected per_cat_waiting
      end
  end.

(** [slots] freed slots are filled one after the other, until the waitlists
    run dry. *)
Fixpoint fill_freed_slots (slots : nat)
    (per_cat_selected per_cat_waiting : PerCat (list Candidate))
    : PerCat (list Candidate) * PerCat (list Candidate) :=
  match slots with
  | O => (per_cat_selected, per_cat_waiting)
  | S slots' =>
      match move_front PRIORITY per_cat_selected per_cat_waiting with
      | Some (selected, waiting) => fill_freed_slots slots' selected waiting
      | None => (per_cat_selected, per_cat_waiting)
      end
  end.

(** The rank of a category in [PRIORITY]. *)
Definition priority_rank (cat : Category) : nat :=
  match cat with
  | Aluno => 0
  | Servidor => 1
  | ComunidadeExterna => 2
  end.

(** ** A small executable instance of [PyLib]

    A linear congruential generator, a shuffle by random insertion and a toy
    digest: enough to run the engine on concrete inputs. *)

Module Lcg.

Definition next (s : Z) : Z :=
  (6364136223846793005 * s + 1442695040888963407) mod 2 ^ 64.

Definition insert_at {A : Type} (j : nat) (x : A) (l : list A) : list A :=
  take j l ++ x :: drop j l.

Fixpoint shuffle {A : Type} (s : Z) (l : list A) : list A * Z :=
  match l with
  | [] => ([], s)
  | x :: l' =>
      let '(acc, s1) := shuffle s l' in
      (insert_at (Z.to_nat (s1 mod (Z.of_nat (length acc) + 1))) x acc, next s1)
  end.

Definition sample {A : Type} (s : Z) (l : list A) (k : nat) : list A * Z :=
  let '(shuffled, s1) := shuffle s l in (take k shuffled, s1).

Fixpoint digest (h : Z) (s : string) : Z :=
  match s with
  | EmptyString => h
  | String a s' => digest ((31 * h + Z.of_nat (nat_of_ascii a)) mod 2 ^ 64) s'
  end.

End Lcg.

(** ** Sample inputs

    The rows of [tests/test_selection.py] and a few rows of the real CSV
    layout. *)

(** A row of the simple CSV layout. *)
Definition simple_row (id nome cat : string) : Row :=
  {[ "id" := id; "nome" := nome; "categoria" := cat ]}.

Definition aluno_1 : Candidate :=
  mkCandidate (simple_row "1" "A1" "Aluno") Aluno None.

Definition aluno_2 : Candidate :=
  mkCandidate (simple_row "2" "A2" "Aluno") Aluno None.
Definition servidor_3 : Candidate :=
  mkCandidate (simple_row "3" "S1" "Servidor") Servidor None.

Definition servidor_4 : Candidate :=
  mkCandidate (simple_row "4" "S2" "Servidor") Servidor None.
Definition servidor_5 : Candidate :=
  mkCandidate (simple_row "5" "S3" "Servidor") Servidor None.

(** Rows of the real CSV layout: the turma, the name, the three eligibility
    flags of the turma and the category of the candidate. *)
Definition real_row (t nome aluno_vaga servidor_vaga externo_vaga cat : string)
    : Row :=
  {[ "Turma [Vaga]" := t; "Nome [Candidato]" := nome;
     "Aluno [Vaga]" := aluno_vaga; "Servidor [Vaga]" := servidor_vaga;
     "Externo [Vaga]" := externo_vaga; "categoria" := cat ]}.

Definition x_ana : Candidate :=
  mkCandidate (real_row "X" "Ana" "true" "true" "true" "Aluno") Aluno (Some "X").
Definition x_bia : Candidate :=
  mkCandidate (real_row "X" "Bia" "true" "true" "true" "Servidor") Servidor (Some "X").
Definition y_davi : Candidate :=
  mkCandidate (real_row "Y" "Davi" "true" "true" "true" "Aluno") Aluno (Some "Y").

(** * Properties *)

(** ** Dicts keyed by [PRIORITY] *)

Lemma pc_get_set_eq {A : Type} (cat : Category) (v : A) (d : PerCat A) :
  pc_get cat (pc_set cat v d) = v.
Proof. by destruct cat. Qed.

Lemma pc_get_set_ne {A : Type} (cat cat' : Category) (v : A) (d : PerCat A) :
  cat ≠ cat' → pc_get cat' (pc_set cat v d) = pc_get cat' d.
Proof. by destruct cat, cat'. Qed.

Lemma pc_get_const {A : Type} (cat : Category) (v : A) :
  pc_get cat (pc_const v) = v.
Proof. by destruct cat. Qed.

Lemma pc_eta {A : Type} (d : PerCat A) :
  d = mkPerCat (pc_get Aluno d) (pc_get Servidor d) (pc_get ComunidadeExterna d).
Proof. by destruct d. Qed.

Lemma sumZ_values (d : PerCat Z) :
  sumZ (pc_values d)
  = pc_get Aluno d + pc_get Servidor d + pc_get ComunidadeExterna d.
Proof. unfold sumZ, pc_values. simpl. lia. Qed.

Lemma elem_of_PRIORITY (cat : Category) : cat ∈ PRIORITY.
Proof. unfold PRIORITY. destruct cat; set_solver. Qed.

(** ** Quota Calculator *)














Example compute_quota_10_60_20_20 :
  compute_quota 10 (mkPerCat (6 # 10) (2 # 10) (2 # 10)) = mkPerCat 6 2 2.
Proof. reflexivity. Qed.

(** Leftover units go to the categories in priority order. *)
Example compute_quota_7_50_30_20 :
  compute_quota 7 (mkPerCat (5 # 10) (3 # 10) (2 # 10)) = mkPerCat 4 2 1.
Proof. reflexivity. Qed.

(** ** The executable instance satisfies the interface *)

Lemma lcg_insert_at_perm {A : Type} (j : nat) (x : A) (l : list A) :
  Lcg.insert_at j x l ≡ₚ x :: l.
Proof.
  unfold Lcg.insert_at. rewrite <- Permutation_middle. by rewrite take_drop.
Qed.

Lemma lcg_shuffle_perm {A : Type} (s : Z) (l : list A) :
  (Lcg.shuffle s l).1 ≡ₚ l.
Proof.
  induction l as [|x l IH]; simpl; [done|].
  destruct (Lcg.shuffle s l) as [acc s1]. simpl in *.
  by rewrite lcg_insert_at_perm, IH.
Qed.

Lemma lcg_sample_spec {A : Type} (s : Z) (l : list A) (k : nat) :
  (k ≤ length l)%nat →
  length (Lcg.sample s l k).1 = k ∧ ∃ rest, (Lcg.sample s l k).1 ++ rest ≡ₚ l.
Proof.
  intros Hk. unfold Lcg.sample.
  pose proof (lcg_shuffle_perm s l) as Hperm.
  destruct (Lcg.shuffle s l) as [shuffled s1]. simpl in *. split.
  - rewrite length_take. apply Permutation_length in Hperm. lia.
  - exists (drop k shuffled). by rewrite take_drop.
Qed.

Definition lcg_lib : PyLib := {|
  rng := Z;
  Random := λ seed, seed;
  rng_shuffle := @Lcg.shuffle;
  rng_sample := @Lcg.sample;
  sha256_head := Lcg.digest 7;
  rng_shuffle_perm := @lcg_shuffle_perm;
  rng_sample_spec := @lcg_sample_spec;
|}.

(** ** Category Drawer *)

Lemma filter_not_elem_of_self {A : Type} `{EqDecision A} (sel : list A) :
  filter (λ c, c ∉ sel) sel = [].
Proof.
  assert (Hgen : ∀ l : list A, (∀ c, c ∈ l → c ∈ sel) → filter (λ c, c ∉ sel) l = []).
  { induction l as [|x l IH]; intros Hsub; [done|].
    rewrite filter_cons_False.
    - apply IH. intros c Hc. apply Hsub. by right.
    - intros Hn. apply Hn, Hsub. left. }
  by apply Hgen.
Qed.

Lemma filter_not_elem_of_disjoint {A : Type} `{EqDecision A} (sel rest : list A) :
  (∀ c, c ∈ rest → c ∉ sel) → filter (λ c, c ∉ sel) rest = rest.
Proof.
  intros Hdis. induction rest as [|x rest IH]; [done|].
  rewrite filter_cons_True by (apply Hdis; left).
  f_equal. apply IH. intros c Hc. apply Hdis. by right.
Qed.

(** With pairwise distinct candidates, the candidates that are not selected
    are the ones the sample left behind. *)
Lemma filter_not_selected_perm {A : Type} `{EqDecision A} (sel rest l : list A) :
  NoDup l → sel ++ rest ≡ₚ l → filter (λ c, c ∉ sel) l ≡ₚ rest.
Proof.
  intros Hnd Hperm. rewrite <- Hperm in Hnd |- *.
  apply NoDup_app in Hnd as (_ & Hdis & _).
  rewrite filter_app, filter_not_elem_of_self. simpl.
  rewrite filter_not_elem_of_disjoint; [done|].
  intros c Hc Hsel. by apply (Hdis c).
Qed.

Section drawer_facts.
Context `{PyLib}.

Lemma sample_in_range {A : Type} (g : rng) (population : list A) (k : Z) :
  0 ≤ k ≤ Z.of_nat (length population) →
  sample g population k = Ok (rng_sample g population (Z.to_nat k)).
Proof.
  intros [Hlo Hhi]. unfold sample.
  apply Z.leb_le in Hlo, Hhi. by rewrite Hlo, Hhi.
Qed.

(** What one draw returns, case by case. *)
Lemma draw_for_category_cases (g : rng) (group : list Candidate) (k : Z) :
  ∃ winners waitlist g',
    draw_for_category g group k = Ok (winners, waitlist, g')
    ∧ length winners = (Z.to_nat k `min` length group)%nat
    ∧ (∀ c, c ∈ winners → c ∈ group)
    ∧ (∀ c, c ∈ waitlist → c ∈ group ∧ (0 < k < Z.of_nat (length group) → c ∉ winners))
    ∧ (NoDup group → winners ++ waitlist ≡ₚ group).
Proof.
  unfold draw_for_category.
  destruct ((k <=? 0) || is_empty group) eqn:Hguard.
  { exists [], group, g. split; [done|]. split.
    - apply orb_true_iff in Hguard as [Hk%Z.leb_le | Hg].
      + replace (Z.to_nat k) with 0%nat by lia. done.
      + destruct group; [simpl; lia | done].
    - split; [by intros c ?%elem_of_nil|]. split; [|done].
      intros c Hc. split; [done|]. intros Hk. exfalso.
      apply orb_true_iff in Hguard as [Hk'%Z.leb_le | Hg]; [lia|].
      destruct group; [simpl in Hk; lia | done]. }
  apply orb_false_iff in Hguard as [Hk%Z.leb_gt Hne].
  destruct (Z.of_nat (length group) <=? k) eqn:Hall.
  { apply Z.leb_le in Hall.
    pose proof (rng_shuffle_perm _ g group) as Hperm.
    destruct (rng_shuffle g group) as [shuffled g1]. simpl in Hperm.
    exists shuffled, [], g1. split; [done|]. split.
    - rewrite (Permutation_length Hperm). lia.
    - split; [intros c; by rewrite Hperm|]. split.
      + by intros c ?%elem_of_nil.
      + intros _. by rewrite app_nil_r. }
  apply Z.leb_gt in Hall.
  rewrite sample_in_range by lia.
  destruct (rng_sample_spec _ g group (Z.to_nat k)) as (Hlen & rest & Hperm); [lia|].
  destruct (rng_sample g group (Z.to_nat k)) as [selected g1].
  simpl in Hlen, Hperm. simpl.
  pose proof (rng_shuffle_perm _ g1 (filter (λ c, c ∉ selected) group)) as Hsh.
  destruct (rng_shuffle g1 (filter (λ c, c ∉ selected) group)) as [remaining g2].
  simpl in Hsh.
  exists selected, remaining, g2. split; [done|]. split; [lia|]. split.
  - intros c Hc. rewrite <- Hperm. apply elem_of_app. by left.
  - split.
    + intros c Hc. rewrite Hsh in Hc.
      apply list_elem_of_filter in Hc as [Hn Hc]. by split.
    + intros Hnd. rewrite Hsh.
      by rewrite (filter_not_selected_perm selected rest group Hnd Hperm).
Qed.

(** No draw raises: [rng.sample] is only called with [0 < k < len(group)]. *)
Lemma draw_for_category_ok (g : rng) (group : list Candidate) (k : Z) :
  is_ok (draw_for_category g group k) = true.
Proof.
  destruct (draw_for_category_cases g group k) as (w & l & g' & -> & _). done.
Qed.

End drawer_facts.

(** ** Shortfall Redistributor *)

(** The inner loop moves [min(total_deficit, len(waitlist))] candidates. *)
Lemma drain_closed_form (waitlist selected : list Candidate) (total_deficit : Z) :
  drain waitlist selected total_deficit
  = (drop (Z.to_nat total_deficit `min` length waitlist) waitlist,
     selected ++ take (Z.to_nat total_deficit `min` length waitlist) waitlist,
     total_deficit - Z.of_nat (Z.to_nat total_deficit `min` length waitlist)).
Proof.
  revert selected total_deficit.
  induction waitlist as [|cand rest IH]; intros selected d; cbn [drain length].
  - rewrite Nat.min_0_r. cbn. rewrite app_nil_r, Z.sub_0_r. done.
  - destruct (0 <? d) eqn:Hd.
    + apply Z.ltb_lt in Hd. rewrite IH.
      replace (Z.to_nat d `min` S (length rest))%nat
        with (S (Z.to_nat (d - 1) `min` length rest)) by lia.
      cbn [drop take]. rewrite <- app_assoc. cbn [app].
      f_equal. lia.
    + apply Z.ltb_ge in Hd. replace (Z.to_nat d) with 0%nat by lia.
      cbn. rewrite app_nil_r, Z.sub_0_r. done.
Qed.

Lemma refilled_0 (per_cat_selected per_cat_waiting : PerCat (list Candidate)) :
  refilled 0 per_cat_selected per_cat_waiting = (per_cat_selected, per_cat_waiting).
Proof.
  destruct per_cat_selected, per_cat_waiting. unfold refilled. simpl.
  by rewrite !app_nil_r.
Qed.

Section redistributor_facts.
Context `{PyLib}.

Lemma refill_closed_form
    (per_cat_selected per_cat_waiting : PerCat (list Candidate)) (total_deficit : Z) :
  0 ≤ total_deficit →
  refill PRIORITY per_cat_selected per_cat_waiting total_deficit
  = refilled (Z.to_nat total_deficit) per_cat_selected per_cat_waiting.
Proof.
  intros Hd.
  destruct per_cat_selected as [sa ss sc], per_cat_waiting as [wa ws wc].
  unfold PRIORITY, refilled, moved. cbn [refill pc_get pc_set pc_aluno pc_servidor pc_comunidade].
  destruct (total_deficit =? 0) eqn:E0.
  { apply Z.eqb_eq in E0 as ->. simpl. by rewrite !app_nil_r. }
  rewrite drain_closed_form.
  set (ma := (Z.to_nat total_deficit `min` length wa)%nat).
  cbn [pc_get pc_set pc_aluno pc_servidor pc_comunidade].
  destruct (total_deficit - Z.of_nat ma =? 0) eqn:E1.
  { apply Z.eqb_eq in E1.
    replace (Z.to_nat total_deficit - ma)%nat with 0%nat by lia.
    simpl. by rewrite !app_nil_r. }
  rewrite drain_closed_form.
  replace (Z.to_nat (total_deficit - Z.of_nat ma))
    with (Z.to_nat total_deficit - ma)%nat by lia.
  set (ms := ((Z.to_nat total_deficit - ma) `min` length ws)%nat).
  cbn [pc_get pc_set pc_aluno pc_servidor pc_comunidade].
  destruct (total_deficit - Z.of_nat ma - Z.of_nat ms =? 0) eqn:E2.
  { apply Z.eqb_eq in E2.
    replace (Z.to_nat total_deficit - ma - ms)%nat with 0%nat by lia.
    simpl. by rewrite !app_nil_r. }
  rewrite drain_closed_form.
  replace (Z.to_nat (total_deficit - Z.of_nat ma - Z.of_nat ms))
    with (Z.to_nat total_deficit - ma - ms)%nat by lia.
  done.
Qed.

Lemma total_deficit_nonneg (per_cat_selected : PerCat (list Candidate))
    (per_cat_quota : PerCat Z) :
  0 ≤ total_deficit per_cat_selected per_cat_quota.
Proof. unfold total_deficit. rewrite sumZ_values. simpl. lia. Qed.

Lemma redistribute_closed_form (g : rng)
    (per_cat_selected per_cat_waiting : PerCat (list Candidate))
    (per_cat_quota : PerCat Z) :
  redistribute_shortfalls g per_cat_selected per_cat_waiting per_cat_quota
  = refilled (Z.to_nat (total_deficit per_cat_selected per_cat_quota))
             per_cat_selected per_cat_waiting.
Proof.
  unfold redistribute_shortfalls. fold (total_deficit per_cat_selected per_cat_quota).
  pose proof (total_deficit_nonneg per_cat_selected per_cat_quota) as Hd.
  destruct (total_deficit per_cat_selected per_cat_quota =? 0) eqn:E0.
  - apply Z.eqb_eq in E0 as ->. by rewrite refilled_0.
  - by apply refill_closed_form.
Qed.

End redistributor_facts.

Lemma priority_rank_lookup (cat : Category) :
  PRIORITY !! priority_rank cat = Some cat.
Proof. by destruct cat. Qed.

Ltac tidy_lists :=
  repeat (progress (rewrite ?Nat.min_0_r, ?Nat.sub_0_r, ?take_nil, ?drop_nil,
                      ?app_nil_r, <- ?app_assoc; cbn [take drop app])).

Lemma fill_freed_slots_closed_form (slots : nat)
    (per_cat_selected per_cat_waiting : PerCat (list Candidate)) :
  fill_freed_slots slots per_cat_selected per_cat_waiting
  = refilled slots per_cat_selected per_cat_waiting.
Proof.
  revert per_cat_selected per_cat_waiting.
  induction slots as [|n IH]; intros sel wait.
  - by rewrite refilled_0.
  - destruct sel as [sa ss sc], wait as [wa ws wc].
    cbn [fill_freed_slots move_front PRIORITY pc_get pc_set
         pc_aluno pc_servidor pc_comunidade].
    destruct wa as [|a wa].
    + destruct ws as [|s ws].
      * destruct wc as [|c wc].
        -- unfold refilled, moved. simpl. by rewrite !app_nil_r.
        -- rewrite IH. unfold refilled, moved. simpl. by tidy_lists.
      * rewrite IH. unfold refilled, moved. simpl. by tidy_lists.
    + rewrite IH. unfold refilled, moved. simpl. by tidy_lists.
Qed.

(** C6: [redistribute_shortfalls] fills the freed slots one by one, each
    with the front candidate of the highest-priority waitlist that is not
    empty, and the candidate joins the winners of its own category. So a
    lower-priority waitlist is only touched once every waitlist before it is
    exhausted; when the waitlist of Aluno is empty, the slots go to the
    waitlist of Servidor before any candidate of Comunidade Externa moves. *)
Theorem redistribute_prefers_priority `{PyLib} (g : rng)
    (per_cat_selected per_cat_waiting : PerCat (list Candidate))
    (per_cat_quota : PerCat Z) :
  let freed := Z.to_nat (total_deficit per_cat_selected per_cat_quota) in
  let after :=
    redistribute_shortfalls g per_cat_selected per_cat_waiting per_cat_quota in
  after = fill_freed_slots freed per_cat_selected per_cat_waiting
  ∧ (∀ hi lo, (priority_rank hi < priority_rank lo)%nat →
       pc_get hi after.2 ≠ [] →
       pc_get lo after.1 = pc_get lo per_cat_selected
       ∧ pc_get lo after.2 = pc_get lo per_cat_waiting)
  ∧ (pc_get Aluno per_cat_waiting = [] →
       let from_servidor :=
         (freed `min` length (pc_get Servidor per_cat_waiting))%nat in
       pc_get Servidor after.1
       = pc_get Servidor per_cat_selected
         ++ take from_servidor (pc_get Servidor per_cat_waiting)
       ∧ pc_get ComunidadeExterna after.1
         = pc_get ComunidadeExterna per_cat_selected
           ++ take ((freed - from_servidor)
                    `min` length (pc_get ComunidadeExterna per_cat_waiting))
                   (pc_get ComunidadeExterna per_cat_waiting)).
Proof.
  intros freed after. subst after.
  rewrite redistribute_closed_form. fold freed.
  split; [by rewrite fill_freed_slots_closed_form|].
  destruct per_cat_selected as [sa ss sc], per_cat_waiting as [wa ws wc].
  unfold refilled, moved. cbn [fst snd pc_get pc_aluno pc_servidor pc_comunidade].
  split.
  - intros hi lo Hrank Hleft.
    assert (Hdrop : ∀ (m : nat) (w : list Candidate),
              drop (m `min` length w) w ≠ [] → (m < length w)%nat).
    { intros m w Hne. destruct (decide (m < length w)%nat); [done|].
      exfalso. apply Hne, drop_ge. lia. }
    destruct hi, lo; simpl in Hrank; try lia;
      cbn [pc_get pc_aluno pc_servidor pc_comunidade] in *;
      apply Hdrop in Hleft.
    + replace (freed - freed `min` length wa)%nat with 0%nat by lia.
      simpl. by rewrite app_nil_r.
    + replace (freed - freed `min` length wa
               - (freed - freed `min` length wa) `min` length ws)%nat
        with 0%nat by lia.
      simpl. by rewrite app_nil_r.
    + replace (freed - freed `min` length wa
               - (freed - freed `min` length wa) `min` length ws)%nat
        with 0%nat by lia.
      simpl. by rewrite app_nil_r.
  - simpl. intros ->. simpl. by rewrite ?Nat.min_0_r, ?Nat.sub_0_r.
Qed.

(** ** The draw on concrete pools *)




(** A pool that holds the same record twice, one winner to draw. *)
Lemma draw_equal_pair `{PyLib} (g : rng) :
  ∃ g', draw_for_category g [aluno_1; aluno_1] 1 = Ok ([aluno_1], [], g').
Proof.
  destruct (draw_for_category_cases g [aluno_1; aluno_1] 1)
    as (winners & waitlist & g' & Hdraw & Hlen & Hin & Hout & _).
  exists g'. rewrite Hdraw. simpl in Hlen.
  destruct winners as [|w [|w' winners]]; simpl in Hlen; try lia.
  assert (w = aluno_1) as ->.
  { assert (Hw : w ∈ [aluno_1; aluno_1]) by (apply Hin; left).
    rewrite !elem_of_cons, elem_of_nil in Hw. by destruct Hw as [?|[?|[]]]. }
  destruct waitlist as [|c waitlist]; [done|].
  exfalso. destruct (Hout c) as [Hc Hn]; [left|].
  apply Hn; [simpl; lia|].
  rewrite !elem_of_cons, elem_of_nil in Hc.
  destruct Hc as [->|[->|[]]]; left.
Qed.

(** C3, on a pool that holds the same record twice: one of the two is
    drawn, and the membership test [c not in selected] then removes both from
    the waitlist. The pool has 2 candidates, the draw returns 1 winner and an
    empty waitlist, so a candidate of the pool is lost. *)
Theorem draw_for_category_equal_candidates `{PyLib} (g : rng) :
  ∃ winners waitlist g',
    draw_for_category g [aluno_1; aluno_1] 1 = Ok (winners, waitlist, g')
    ∧ winners = [aluno_1] ∧ waitlist = []
    ∧ length waitlist ≠ (length [aluno_1; aluno_1] - length winners)%nat.
Proof.
  destruct (draw_equal_pair g) as [g' Hdraw].
  exists [aluno_1], [], g'. split; [exact Hdraw|].
  split; [reflexivity|]. split; [reflexivity|].
  simpl. lia.
Qed.

(** ** Lottery Orchestrator *)





Section orchestrator_facts.
Context `{PyLib}.




End orchestrator_facts.

(** *** Determinism

    The embedding of [run_lottery] is a function: the generator is built
    from the seed inside the call and no other state is read. The result
    depends on a percentage only through its value, not through the fraction
    that denotes it. *)

Lemma Qle_bool_0_comp (p p' : Q) : (p == p')%Q → Qle_bool p 0 = Qle_bool p' 0.
Proof.
  intros Heq.
  destruct (Qle_bool p 0) eqn:E, (Qle_bool p' 0) eqn:E'; try done.
  - apply Qle_bool_iff in E. rewrite Heq in E. apply Qle_bool_iff in E. congruence.
  - apply Qle_bool_iff in E'. rewrite <- Heq in E'. apply Qle_bool_iff in E'.
    congruence.
Qed.

Lemma max0_comp (p p' : Q) : (p == p')%Q → (max0 p == max0 p')%Q.
Proof.
  intros Heq. unfold max0. rewrite (Qle_bool_0_comp p p' Heq).
  by destruct (Qle_bool p' 0).
Qed.

Lemma floor_share_comp (vagas : Z) (p p' : Q) :
  (p == p')%Q →
  Qfloor (inject_Z vagas * max0 p) = Qfloor (inject_Z vagas * max0 p').
Proof. intros Heq. apply Qfloor_comp. by rewrite (max0_comp p p' Heq). Qed.

Lemma compute_quota_comp (vagas : Z) (pct pct' : PerCat Q) :
  (∀ cat, pc_get cat pct == pc_get cat pct')%Q →
  compute_quota vagas pct = compute_quota vagas pct'.
Proof.
  intros Heq. unfold compute_quota.
  rewrite (floor_share_comp vagas _ _ (Heq Aluno)).
  rewrite (floor_share_comp vagas _ _ (Heq Servidor)).
  rewrite (floor_share_comp vagas _ _ (Heq ComunidadeExterna)).
  done.
Qed.

(** C1: two calls of [run_lottery] with the same candidate list, the same
    slot count, the same three percentages and the same seed return the same
    pair of lists, element by element and in the same order. *)
Theorem run_lottery_deterministic `{PyLib}
    (candidates candidates' : list Candidate) (vagas vagas' : Z)
    (pct_aluno pct_aluno' pct_servidor pct_servidor'
     pct_comunidade pct_comunidade' : Q) (seed seed' : Z) :
  candidates = candidates' → vagas = vagas' →
  (pct_aluno == pct_aluno')%Q → (pct_servidor == pct_servidor')%Q →
  (pct_comunidade == pct_comunidade')%Q → seed = seed' →
  run_lottery candidates vagas pct_aluno pct_servidor pct_comunidade seed
  = run_lottery candidates' vagas' pct_aluno' pct_servidor' pct_comunidade' seed'.
Proof.
  intros <- <- Ha Hs Hc <-. unfold run_lottery.
  destruct (vagas <=? 0); [done|].
  assert (Htot : (pct_aluno + pct_servidor + pct_comunidade
                  == pct_aluno' + pct_servidor' + pct_comunidade')%Q)
    by by rewrite Ha, Hs, Hc.
  rewrite (Qle_bool_0_comp _ _ Htot).
  destruct (Qle_bool _ 0); [done|].
  f_equal. apply compute_quota_comp.
  intros []; simpl; by rewrite ?Ha, ?Hs, ?Hc.
Qed.

Lemma run_lottery_deterministic_witness :
  run_lottery (H := lcg_lib) [aluno_1; aluno_2; servidor_3] 7
    (5 # 10) (3 # 10) (2 # 10) 42
  = run_lottery (H := lcg_lib) [aluno_1; aluno_2; servidor_3] 7
      (1 # 2) (6 # 20) (1 # 5) 42.
Proof.
  apply (run_lottery_deterministic (H := lcg_lib)); reflexivity.
Defined.

(** *** The orchestrator on concrete inputs *)

Section orchestrator_runs.
Context `{PyLib}.

Lemma run_lottery_unfold (candidates : list Candidate) (vagas : Z)
    (pct_aluno pct_servidor pct_comunidade : Q) (seed : Z) :
  0 < vagas →
  Qle_bool (pct_aluno + pct_servidor + pct_comunidade) 0 = false →
  run_lottery candidates vagas pct_aluno pct_servidor pct_comunidade seed
  = draw_and_consolidate (Random seed) (partition_by_category candidates)
      (compute_quota vagas
         (mkPerCat
            (pct_aluno / (pct_aluno + pct_servidor + pct_comunidade))%Q
            (pct_servidor / (pct_aluno + pct_servidor + pct_comunidade))%Q
            (pct_comunidade / (pct_aluno + pct_servidor + pct_comunidade))%Q))
      vagas.
Proof.
  intros Hv Hp. unfold run_lottery.
  apply Z.leb_gt in Hv. by rewrite Hv, Hp.
Qed.

Lemma draw_for_category_nil (g : rng) (k : Z) :
  draw_for_category g [] k = Ok ([], [], g).
Proof. unfold draw_for_category. simpl. by rewrite orb_true_r. Qed.

Lemma draw_for_category_all (g : rng) (group : list Candidate) (k : Z) :
  group ≠ [] → Z.of_nat (length group) ≤ k →
  draw_for_category g group k
  = Ok ((rng_shuffle g group).1, [], (rng_shuffle g group).2).
Proof.
  intros Hne Hk. unfold draw_for_category.
  assert (0 < Z.of_nat (length group)) by (destruct group; [done | simpl; lia]).
  replace (k <=? 0) with false by (symmetry; apply Z.leb_gt; lia).
  replace (is_empty group) with false by by destruct group.
  apply Z.leb_le in Hk. rewrite Hk. simpl.
  by destruct (rng_shuffle g group).
Qed.

(** What [draw_and_consolidate] returns once the three draws are known. *)
Lemma draw_and_consolidate_unfold (g : rng) (groups : PerCat (list Candidate))
    (quotas : PerCat Z) (vagas : Z)
    (per_cat_selected per_cat_waiting : PerCat (list Candidate)) (g' : rng) :
  draw_all PRIORITY g groups quotas (pc_const []) (pc_const [])
    = Ok (per_cat_selected, per_cat_waiting, g') →
  draw_and_consolidate g groups quotas vagas
  = let after :=
      refilled (Z.to_nat (total_deficit per_cat_selected quotas))
               per_cat_selected per_cat_waiting in
    Ok (row <$> take (Z.to_nat vagas) (extend_all after.1),
        row <$> extend_all after.2).
Proof.
  intros Hdraw. unfold draw_and_consolidate. rewrite Hdraw.
  cbn [mbind result_bind]. rewrite redistribute_closed_form.
  by destruct (refilled _ _ _).
Qed.

End orchestrator_runs.

(** C5, on a list that holds the same record twice, with 2 slots split
    evenly between Aluno and Servidor: Aluno has quota 1, the draw keeps one
    record and loses the other, and the slot of Servidor stays empty. Two
    candidates and two slots, one admitted. *)
Theorem run_lottery_equal_candidates `{PyLib} (seed : Z) :
  run_lottery [aluno_1; aluno_1] 2 (1 # 2) (1 # 2) 0 seed
  = Ok ([row aluno_1], []).
Proof.
  rewrite run_lottery_unfold by done.
  replace (compute_quota _ _) with (mkPerCat 1 1 0) by reflexivity.
  replace (partition_by_category _)
    with (mkPerCat [aluno_1; aluno_1] [] []) by reflexivity.
  destruct (draw_equal_pair (Random seed)) as [g1 Ha].
  erewrite draw_and_consolidate_unfold; last first.
  { unfold PRIORITY. cbn [draw_all pc_get pc_aluno pc_servidor pc_comunidade].
    rewrite Ha. cbn [mbind result_bind].
    rewrite !draw_for_category_nil. cbn [mbind result_bind]. reflexivity. }
  reflexivity.
Qed.

Lemma servidor_rows_distinct (a b : Candidate) :
  a ∈ [servidor_3; servidor_4; servidor_5] →
  b ∈ [servidor_3; servidor_4; servidor_5] →
  row a = row b → a = b.
Proof.
  rewrite !elem_of_cons, !elem_of_nil.
  intros [->|[->|[->|[]]]] [->|[->|[->|[]]]] Heq; try done;
    apply (f_equal (λ r : Row, r !! "id")) in Heq;
    vm_compute in Heq; discriminate.
Qed.

(** C4, with a negative percentage: the shares are divided by their raw sum,
    [compute_quota] then clamps the negative one to 0, and the quotas add up
    to 3 for 2 slots. All 3 candidates are drawn as winners, the list of
    winners is cut to 2, and the third candidate is in neither list. *)
Theorem run_lottery_negative_percentage `{PyLib} (seed : Z) :
  ∃ aprovados,
    run_lottery [servidor_3; servidor_4; servidor_5] 2 (-1 # 2) (3 # 2) 0 seed
      = Ok (aprovados, [])
    ∧ length aprovados = 2%nat
    ∧ ∃ c, c ∈ [servidor_3; servidor_4; servidor_5] ∧ row c ∉ aprovados.
Proof.
  rewrite run_lottery_unfold by done.
  replace (compute_quota _ _) with (mkPerCat 0 3 0) by reflexivity.
  replace (partition_by_category _)
    with (mkPerCat [] [servidor_3; servidor_4; servidor_5] []) by reflexivity.
  pose proof (rng_shuffle_perm _ (Random seed)
                [servidor_3; servidor_4; servidor_5]) as Hperm.
  erewrite draw_and_consolidate_unfold; last first.
  { unfold PRIORITY. cbn [draw_all pc_get pc_aluno pc_servidor pc_comunidade].
    rewrite draw_for_category_nil. cbn [mbind result_bind].
    rewrite draw_for_category_all by (simpl; done || lia).
    cbn [mbind result_bind].
    rewrite draw_for_category_nil. cbn [mbind result_bind]. reflexivity. }
  destruct (rng_shuffle (Random seed) [servidor_3; servidor_4; servidor_5])
    as [shuffled g1]. simpl in Hperm.
  apply Permutation_length in Hperm as Hlen.
  destruct shuffled as [|x [|y [|z [|? ?]]]]; simpl in Hlen; try lia.
  exists [row x; row y]. split; [reflexivity|]. split; [reflexivity|].
  assert (Hnd : NoDup [x; y; z]).
  { rewrite Hperm. apply NoDup_fmap_1 with (f := row).
    apply (bool_decide_unpack _). by vm_compute. }
  assert (Hin : ∀ c, c ∈ [x; y; z] → c ∈ [servidor_3; servidor_4; servidor_5]).
  { intros c. by rewrite Hperm. }
  exists z. split; [apply Hin; set_solver|].
  intros Hz. apply NoDup_cons in Hnd as [Hx Hnd].
  apply NoDup_cons in Hnd as [Hy _].
  rewrite !elem_of_cons, elem_of_nil in Hz. destruct Hz as [Hz|[Hz|[]]].
  - apply servidor_rows_distinct in Hz; [|apply Hin; set_solver..].
    subst. apply Hx. set_solver.
  - apply servidor_rows_distinct in Hz; [|apply Hin; set_solver..].
    subst. apply Hy. set_solver.
Qed.

(** *** The orchestrator on pairwise distinct candidates *)






Section orchestrator_distinct.
Context `{PyLib}.





End orchestrator_distinct.

(** ** Grouped Lottery Runner *)

Lemma assoc_get_setdefault_append (t t' : string) (c : Candidate)
    (turmas : list (string * list Candidate)) :
  assoc_get t (setdefault_append t' c turmas)
  = if decide (t' = t) then Some (default [] (assoc_get t turmas) ++ [c])
    else assoc_get t turmas.
Proof.
  induction turmas as [|[k cs] rest IH]; simpl.
  - by repeat case_decide.
  - destruct (decide (k = t')) as [->|Hne]; simpl.
    + by repeat case_decide.
    + rewrite IH. repeat case_decide; simplify_eq; done.
Qed.

Lemma assoc_get_group_fold (t : string) (candidates : list Candidate)
    (turmas : list (string * list Candidate)) :
  assoc_get t
    (fold_left (λ turmas c, setdefault_append (turma_key c) c turmas)
               candidates turmas)
  = match filter (λ c, turma_key c = t) candidates with
    | [] => assoc_get t turmas
    | own => Some (default [] (assoc_get t turmas) ++ own)
    end.
Proof.
  revert turmas. induction candidates as [|c l IH]; intros turmas; [done|].
  cbn [fold_left]. rewrite IH, assoc_get_setdefault_append, filter_cons.
  destruct (decide (turma_key c = t)) as [Heq|Hne].
  - simpl. destruct (filter _ l); simpl; [done|].
    by rewrite <- app_assoc.
  - done.
Qed.

(** The candidates stored under a turma are the candidates of that turma, in
    input order; a turma without candidates has no entry. *)
Lemma assoc_get_group_by_turma (t : string) (candidates : list Candidate) :
  assoc_get t (group_by_turma candidates)
  = match filter (λ c, turma_key c = t) candidates with
    | [] => None
    | own => Some own
    end.
Proof.
  unfold group_by_turma. rewrite assoc_get_group_fold. simpl.
  by destruct (filter _ candidates).
Qed.

Lemma sample_rows_fold (t : string) (candidates : list Candidate)
    (sample_by_turma : gmap string Row) :
  fold_left
    (λ sample_by_turma c,
       match turma c with
       | Some t =>
           match sample_by_turma !! t with
           | None => <[t := row c]> sample_by_turma
           | Some _ => sample_by_turma
           end
       | None => sample_by_turma
       end)
    candidates sample_by_turma !! t
  = match sample_by_turma !! t with
    | Some r => Some r
    | None => row <$> head (filter (λ c, turma c = Some t) candidates)
    end.
Proof.
  revert sample_by_turma. induction candidates as [|c l IH]; intros m.
  - simpl. by destruct (m !! t).
  - cbn [fold_left]. rewrite IH, filter_cons.
    destruct (turma c) as [t'|] eqn:Ht.
    + destruct (decide (t' = t)) as [->|Hne].
      * rewrite decide_True by done.
        destruct (m !! t) eqn:Hm; rewrite ?Hm; [done|].
        by rewrite lookup_insert_eq.
      * rewrite decide_False by congruence.
        destruct (m !! t') eqn:Hm'; [done|].
        by rewrite lookup_insert_ne.
    + by rewrite decide_False.
Qed.

(** The sample row of a turma is the row of its first candidate whose
    [turma] field is the name itself. *)
Lemma sample_rows_lookup (t : string) (candidates : list Candidate) :
  sample_rows candidates !! t
  = row <$> head (filter (λ c, turma c = Some t) candidates).
Proof. unfold sample_rows. by rewrite sample_rows_fold, lookup_empty. Qed.

Lemma filter_turma_own (t : string) (candidates : list Candidate) :
  filter (λ c, turma c = Some t) candidates
  = filter (λ c, turma c = Some t) (filter (λ c, turma_key c = t) candidates).
Proof.
  induction candidates as [|c l IH]; [done|].
  rewrite !filter_cons.
  destruct (decide (turma c = Some t)) as [Heq|Hne].
  - rewrite decide_True by (unfold turma_key; by rewrite Heq).
    rewrite filter_cons, decide_True by done. by rewrite IH.
  - destruct (decide (turma_key c = t)); [|done].
    by rewrite filter_cons, decide_False.
Qed.

(** The sample row of a turma is read off its own candidates. *)
Lemma sample_rows_own (t : string) (candidates : list Candidate) :
  sample_rows candidates !! t
  = sample_rows (filter (λ c, turma_key c = t) candidates) !! t.
Proof. by rewrite !sample_rows_lookup, filter_turma_own. Qed.

Section grouped_facts.
Context `{PyLib}.

(** A turn of the loop reads the two dicts only at its own turma. *)
Lemma lottery_of_turma_local (s1 s2 : gmap string Row) (v1 v2 : gmap string Z)
    (pcts : PerCat Q) (seed : Z) (t : string) (cands : list Candidate) :
  s1 !! t = s2 !! t → v1 !! t = v2 !! t →
  lottery_of_turma s1 v1 pcts seed t cands
  = lottery_of_turma s2 v2 pcts seed t cands.
Proof. intros Hs Hv. unfold lottery_of_turma. by rewrite Hs, Hv. Qed.


(** A returned [results] holds, under every turma, what the turn of that
    turma stored. *)
Lemma lottery_loop_lookup (s : gmap string Row) (v : gmap string Z)
    (pcts : PerCat Q) (seed : Z) (turmas : list (string * list Candidate))
    (results : list (string * (list Row * list Row))) (t : string) :
  lottery_loop s v pcts seed turmas = Ok results →
  match assoc_get t turmas with
  | Some cands =>
      ∃ r, lottery_of_turma s v pcts seed t cands = Ok r
           ∧ assoc_get t results = Some r
  | None => assoc_get t results = None
  end.
Proof.
  revert results. induction turmas as [|[k cs] rest IH]; intros results.
  - simpl. by intros [= <-].
  - cbn [lottery_loop].
    destruct (lottery_of_turma s v pcts seed k cs) as [r|e] eqn:Hk; [|done].
    cbn [mbind result_bind].
    destruct (lottery_loop s v pcts seed rest) as [rs|e] eqn:Hrest; [|done].
    cbn [mbind result_bind]. intros [= <-]. simpl.
    destruct (decide (k = t)) as [->|Hne]; [eauto|].
    by apply IH.
Qed.


(** What a returned [results] holds under a turma, in terms of the input. *)
Lemma run_lottery_per_turma_lookup (candidates : list Candidate)
    (vagas_por_turma : gmap string Z) (pct_aluno pct_servidor pct_comunidade : Q)
    (seed : Z) (results : list (string * (list Row * list Row))) (t : string) :
  run_lottery_per_turma candidates vagas_por_turma
    pct_aluno pct_servidor pct_comunidade seed = Ok results →
  ∃ pcts,
    _normalize_pcts (mkPerCat pct_aluno pct_servidor pct_comunidade) = Ok pcts
    ∧ match filter (λ c, turma_key c = t) candidates with
      | [] => assoc_get t results = None
      | own =>
          ∃ r, lottery_of_turma (sample_rows own) vagas_por_turma pcts seed t own
               = Ok r
               ∧ assoc_get t results = Some r
      end.
Proof.
  unfold run_lottery_per_turma.
  destruct (_normalize_pcts _) as [pcts|e]; [|done].
  cbn [mbind result_bind]. intros Hloop. exists pcts. split; [done|].
  pose proof (lottery_loop_lookup _ _ _ _ _ _ t Hloop) as Hl.
  rewrite assoc_get_group_by_turma in Hl.
  pose proof (sample_rows_own t candidates) as Hsample.
  destruct (filter (λ c, turma_key c = t) candidates) as [|c own]; [done|].
  destruct Hl as (r & Hr & Hget). exists r. split; [|done].
  rewrite <- Hr. by apply lottery_of_turma_local.
Qed.


End grouped_facts.


Section grouped_errors.
Context `{PyLib}.

(** C9: a group whose slot count is zero, negative or missing from
    [vagas_por_turma] gets two empty lists. Its turn of the loop returns them
    before anything that can raise is evaluated, and every returned [results]
    holds them under the name of the group. *)
Theorem turma_without_slots_is_empty (candidates : list Candidate)
    (vagas_por_turma : gmap string Z) (pct_aluno pct_servidor pct_comunidade : Q)
    (seed : Z) (t : string) :
  default 0 (vagas_por_turma !! t) ≤ 0 →
  (∀ sample_by_turma pcts cands,
     lottery_of_turma sample_by_turma vagas_por_turma pcts seed t cands
     = Ok ([], []))
  ∧ (∀ results,
       run_lottery_per_turma candidates vagas_por_turma
         pct_aluno pct_servidor pct_comunidade seed = Ok results →
       (∃ c, c ∈ candidates ∧ turma_key c = t) →
       assoc_get t results = Some ([], [])).
Proof.
  intros Hvagas.
  assert (Hturn : ∀ sample_by_turma pcts cands,
            lottery_of_turma sample_by_turma vagas_por_turma pcts seed t cands
            = Ok ([], [])).
  { intros s pcts cands. unfold lottery_of_turma.
    apply Z.leb_le in Hvagas. by rewrite Hvagas. }
  split; [done|].
  intros results Hrun (c & Hc & Hkey).
  destruct (run_lottery_per_turma_lookup _ _ _ _ _ _ _ t Hrun) as (pcts & _ & Hl).
  assert (Hin : c ∈ filter (λ c, turma_key c = t) candidates)
    by by apply list_elem_of_filter.
  destruct (filter (λ c, turma_key c = t) candidates) as [|c' own];
    [by apply elem_of_nil in Hin|].
  destruct Hl as (r & Hr & ->). rewrite Hturn in Hr. congruence.
Qed.

End grouped_errors.

Lemma turma_without_slots_is_empty_witness :
  default 0 (({[ "X" := 2 ]} : gmap string Z) !! "Y") ≤ 0
  ∧ (∀ sample_by_turma pcts cands,
       lottery_of_turma (H := lcg_lib) sample_by_turma {[ "X" := 2 ]} pcts 42 "Y" cands
       = Ok ([], []))
  ∧ (∀ results,
       run_lottery_per_turma (H := lcg_lib) [x_ana; y_davi; x_bia]
         {[ "X" := 2 ]} (5 # 10) (3 # 10) (2 # 10) 42 = Ok results →
       (∃ c, c ∈ [x_ana; y_davi; x_bia] ∧ turma_key c = "Y") →
       assoc_get "Y" results = Some ([], [])).
Proof.
  assert (Hvagas : default 0 (({[ "X" := 2 ]} : gmap string Z) !! "Y") ≤ 0)
    by (vm_compute; discriminate).
  split; [exact Hvagas|].
  exact (turma_without_slots_is_empty (H := lcg_lib) [x_ana; y_davi; x_bia]
           {[ "X" := 2 ]} (5 # 10) (3 # 10) (2 # 10) 42 "Y" Hvagas).
Defined.

(** The grouped runner on the example of the specification: 2 slots for X,
    0 slots for Y. *)
Example run_lottery_per_turma_zero_slots :
  ∃ r, run_lottery_per_turma (H := lcg_lib) [x_ana; y_davi; x_bia]
         {[ "X" := 2; "Y" := 0 ]} (5 # 10) (3 # 10) (2 # 10) 42
       = Ok [("X", r); ("Y", ([], []))].
Proof. eexists. vm_compute. reflexivity. Qed.



Section grouped_shares.
Context `{PyLib}.


End grouped_shares.


(** ** The test suite of the repository, on the executable instance *)




Example test_priority_and_redistribution :
  run_lottery (H := lcg_lib) [aluno_1; aluno_2; servidor_3] 3
    (6 # 10) (2 # 10) (2 # 10) 1
  = Ok ([row aluno_1; row aluno_2; row servidor_3], []).
Proof. vm_compute. reflexivity. Qed.

Example trueish_values :
  _trueish " Sim " = true ∧ _trueish "TRUE" = true ∧ _trueish "1" = true
  ∧ _trueish "y" = true ∧ _trueish "" = false ∧ _trueish "false" = false
  ∧ _trueish "nao" = false.
Proof. by vm_compute. Qed.

Example allowed_cats_default : _allowed_cats_for_turma ∅ = PRIORITY.
Proof. by vm_compute. Qed.

Example allowed_cats_all_false :
  _allowed_cats_for_turma (real_row "W" "n" "false" "false" "false" "Aluno")
  = PRIORITY.
Proof. by vm_compute. Qed.
